(** * cube-regression: the plane equation, the squared error and the data generator

    A shallow embedding of the numeric core of the 3D regression widget:

    - [RegressionStats.calculatePlaneEquation] and
      [RegressionStats.calculateError] from
      [src/app/components/RegressionStats.tsx];
    - [RegressionCube.generateDataPoints] and [RegressionCube.ErrorLines] from
      [src/app/components/RegressionCube.tsx].

    Reading of the data.  A TypeScript [number] that the code computes with is
    read as a real number, and [Math.PI], [Math.sin], [Math.cos], [Math.max],
    [Math.min] as the functions of real analysis; rounding to IEEE doubles (and
    to single precision in the [Float32Array] of [ErrorLines]) is outside this
    reading.  A quotient whose divisor is a variable has type [number]: it is a
    real number only when the divisor is not zero, and is [NotReal] otherwise
    (the source yields an infinity or NaN there).  A division by a non-zero
    literal ([/ 180], [/ 2]) is the division of the reals.  The reading and
    the doubles agree up to rounding except where an exact value is 0 and the
    rounded one is not: [cos (PI / 2)] is 0 here, while [Math.cos(Math.PI / 2)]
    is about 6.1e-17, so what happens at [xRotation = 0] beyond the failure of
    the horizontal-plane equation is not settled by this reading.  An array is a
    list and its length ([count]) a natural number, so the engine's limits on
    array size are outside this reading too.  The ambient generator behind
    [Math.random] is an explicit state that every draw reads and advances. *)

From Stdlib Require Import Reals Lra Lia List Permutation.
Import ListNotations.

Open Scope R_scope.

(** ** Numbers *)

(** The value of an expression that may leave the real numbers. *)
Definition number : Type := option R.

Definition Real (r : R) : number := Some r.
Definition NotReal : number := None.

(** [a / b] of the source for a divisor that is not a literal. *)
Definition div (a b : R) : number :=
  if Req_dec_T b 0 then NotReal else Real (a / b).

Notation "a // b" := (div a b) (at level 40, left associativity) : R_scope.

(** The part of the [Math] object the program uses. *)
Module Math.
Definition PI : R := Rtrigo1.PI.
Definition sin (a : R) : R := Rtrigo_def.sin a.
Definition cos (a : R) : R := Rtrigo_def.cos a.
Definition max (a b : R) : R := Rmax a b.
Definition min (a b : R) : R := Rmin a b.
(** [Math.pow(b, e)] for a literal exponent [e] that is a natural number. *)
Definition pow (b : R) (e : nat) : R := b ^ e.
End Math.

(** ** Data model *)

(** [interface Point3D], declared with the same shape in both files. *)
Record Point3D : Type := mkPoint3D { x : R; y : R; z : R }.

(** The object returned by [calculatePlaneEquation]. *)
Module PlaneEquation.
Record t : Type := mk {
  beta0 : number;
  beta1 : number;
  beta2 : number;
  normalVector : list R
}.
End PlaneEquation.

(** The parameter [equation] of [calculateError]:
    [{ beta0: number; beta1: number; beta2: number }] with real entries. *)
Module Equation.
Record t : Type := mk { beta0 : R; beta1 : R; beta2 : R }.
End Equation.

(** ** RegressionStats.tsx *)

Module RegressionStats.

(** [function calculatePlaneEquation(height, xRotation, zRotation, cubeSize)] *)
Definition calculatePlaneEquation
    (height xRotation zRotation cubeSize : R) : PlaneEquation.t :=
  let xRad := (xRotation * Math.PI) / 180 in
  let zRad := (zRotation * Math.PI) / 180 in
  let initialXRotation := Math.PI / 2 in
  let effectiveXRad := initialXRotation + xRad in
  let normalX := Math.sin effectiveXRad in
  let normalY := Math.cos effectiveXRad * Math.cos zRad in
  let normalZ := Math.sin zRad * Math.cos effectiveXRad in
  let yPosition := height * cubeSize - cubeSize / 2 in
  let d := - normalX * 0 - normalY * yPosition - normalZ * 0 in
  let beta0 := - d // normalY in
  let beta1 := - normalX // normalY in
  let beta2 := - normalZ // normalY in
  PlaneEquation.mk beta0 beta1 beta2 [normalX; normalY; normalZ].

(** [function calculateError(points, equation)]: a [reduce] from [0],
    left to right. *)
Definition calculateError (points : list Point3D) (equation : Equation.t) : R :=
  let beta0 := Equation.beta0 equation in
  let beta1 := Equation.beta1 equation in
  let beta2 := Equation.beta2 equation in
  fold_left
    (fun totalError point =>
       let predictedY := beta0 + beta1 * x point + beta2 * z point in
       let error := Math.pow (y point - predictedY) 2 in
       totalError + error)
    points 0.

End RegressionStats.

(** ** RegressionCube.tsx *)

Module RegressionCube.

Definition CUBE_SIZE : R := 5.
Definition HALF_SIZE : R := CUBE_SIZE / 2.

(** [new Float32Array([...])]: the six coordinates of one residual line. *)
Definition vertices : Type := list number.

(** [function ErrorLines({ points, height, xRotation, zRotation })]: the
    vertex array of the [<line>] drawn for each point, in order. *)
Definition ErrorLines
    (points : list Point3D) (height xRotation zRotation : R) : list vertices :=
  let xRad := (xRotation * Math.PI) / 180 in
  let zRad := (zRotation * Math.PI) / 180 in
  let initialXRotation := Math.PI / 2 in
  let effectiveXRad := initialXRotation + xRad in
  let normalX := Math.sin effectiveXRad in
  let normalY := Math.cos effectiveXRad * Math.cos zRad in
  let normalZ := Math.sin zRad * Math.cos effectiveXRad in
  let yPosition := height * CUBE_SIZE - HALF_SIZE in
  let d := - normalX * 0 - normalY * yPosition - normalZ * 0 in
  map
    (fun point =>
       let predictedY :=
         (- normalX * x point - normalZ * z point - d) // normalY in
       [ Real (x point); Real (y point); Real (z point);
         Real (x point); predictedY; Real (z point) ])
    points.

Section RandomSource.

(** The state of the generator behind [Math.random] and one draw from it. *)
Variable rng : Type.
Variable Math_random : rng -> R * rng.

(** [Array(count).fill(0)] *)
Definition Array_fill (count : nat) (v : R) : list R := repeat v count.

(** [Array.prototype.map] with a callback that draws random numbers: the
    elements are visited from index 0 upwards, each visit continuing from
    the generator state the previous one left. *)
Fixpoint map_drawing {A B : Type} (f : A -> rng -> B * rng)
    (l : list A) (s : rng) : list B * rng :=
  match l with
  | [] => ([], s)
  | a :: l' =>
      let (b, s1) := f a s in
      let (bs, s2) := map_drawing f l' s1 in
      (b :: bs, s2)
  end.

(** The callback of the [map] in [generateDataPoints]. *)
Definition generateDataPoint (noise : R) (s : rng) : Point3D * rng :=
  let trueBeta0 := 0 in
  let trueBeta1 := 0.5 in
  let trueBeta2 := - 0.3 in
  let (r1, s1) := Math_random s in
  let x := (r1 - 0.5) * CUBE_SIZE * 0.8 in
  let (r2, s2) := Math_random s1 in
  let z := (r2 - 0.5) * CUBE_SIZE * 0.8 in
  let (r3, s3) := Math_random s2 in
  let y :=
    trueBeta0 + trueBeta1 * x + trueBeta2 * z
    + (r3 - 0.5) * noise * CUBE_SIZE * 0.4 in
  let clampedY :=
    Math.max (- HALF_SIZE * 0.9) (Math.min (HALF_SIZE * 0.9) y) in
  (mkPoint3D x clampedY z, s3).

(** [function generateDataPoints(count = 30, noise = 0.8)], given both
    arguments and the generator state at the call; returns the points and
    the generator state after the call. *)
Definition generateDataPoints (count : nat) (noise : R) (s : rng)
    : list Point3D * rng :=
  map_drawing (fun _ => generateDataPoint noise) (Array_fill count 0) s.

End RandomSource.

End RegressionCube.

Import RegressionStats RegressionCube.

(** ** Vocabulary of the statements *)

(** Degrees to radians, as [calculatePlaneEquation] and [ErrorLines] convert
    them: [(deg * Math.PI) / 180]. *)
Definition radians (deg : R) : R := (deg * Math.PI) / 180.

(** [equation.normalVector[0]], [[1]] and [[2]], as [RegressionStats] reads
    them. *)
Definition normalX (e : PlaneEquation.t) : R := nth 0 (PlaneEquation.normalVector e) 0.
Definition normalY (e : PlaneEquation.t) : R := nth 1 (PlaneEquation.normalVector e) 0.
Definition normalZ (e : PlaneEquation.t) : R := nth 2 (PlaneEquation.normalVector e) 0.

(** The sum of the squared residuals as the specification words it: for each
    point the predicted y is [beta0 + beta1 * x + beta2 * z], the squared
    residual is the square of observed minus predicted, and the result is the
    sum over all points. *)
Definition squared_residual (equation : Equation.t) (point : Point3D) : R :=
  (y point
   - (Equation.beta0 equation + Equation.beta1 equation * x point
      + Equation.beta2 equation * z point))².

Definition sum_of_squared_residuals
    (points : list Point3D) (equation : Equation.t) : R :=
  fold_right Rplus 0 (map (squared_residual equation) points).

(** A generator for concrete runs: its state counts the draws made so far,
    and the draws walk through the three values 0, 0.25 and 0.75. *)
Definition cycling_random (n : nat) : R * nat :=
  (match Nat.modulo n 3 with
   | O => 0
   | S O => 0.25
   | _ => 0.75
   end, S n).

(** ** The rest of RegressionCube.tsx: what is drawn *)

(** A [THREE.Group] as far as [RegressionPlane] writes it: the Euler angles
    of [rotation] and the coordinates of [position], each as (x, y, z). *)
Record Group : Type := mkGroup {
  rotation : R * R * R;
  position : R * R * R
}.

(** The callback that [RegressionPlane] passes to [useFrame], acting on
    [planeRef.current]: nothing happens while the ref is still [null];
    otherwise [rotation.set(...)] overwrites the three angles and
    [position.y] is assigned. *)
Definition RegressionPlane_useFrame
    (height xRotation zRotation : R) (current : option Group) : option Group :=
  match current with
  | Some g =>
      let g1 :=
        mkGroup ((xRotation * Math.PI) / 180, 0, (zRotation * Math.PI) / 180)
                (position g) in
      let '(px, _, pz) := position g1 in
      Some (mkGroup (rotation g1) (px, height * CUBE_SIZE - HALF_SIZE, pz))
  | None => None
  end.

(** [group.position.y] *)
Definition position_y (g : Group) : R := let '(_, py, _) := position g in py.

(** The generator state after [n] further draws. *)
Fixpoint after_draws {rng : Type} (Math_random : rng -> R * rng)
    (n : nat) (s : rng) : rng :=
  match n with
  | O => s
  | S n' => after_draws Math_random n' (snd (Math_random s))
  end.

(** The squared length of the line between the two vertices of one vertex
    array of [ErrorLines]; it is a real number only when all six coordinates
    are. *)
Definition squared_length (v : vertices) : number :=
  match v with
  | [Some x1; Some y1; Some z1; Some x2; Some y2; Some z2] =>
      Real ((x1 - x2)² + (y1 - y2)² + (z1 - z2)²)
  | _ => NotReal
  end.

(** The sum of a list of numbers, real only when every entry is. *)
Fixpoint sum_numbers (l : list number) : number :=
  match l with
  | [] => Real 0
  | Some a :: l' =>
      match sum_numbers l' with
      | Some b => Real (a + b)
      | None => NotReal
      end
  | None :: _ => NotReal
  end.

(** * Properties *)

(** ** Division and trigonometry *)

Lemma div_real (a b : R) : b <> 0 -> a // b = Real (a / b).
Proof.
  intro Hb. unfold div. destruct (Req_dec_T b 0) as [E | _].
  - contradiction.
  - reflexivity.
Qed.

Lemma div_zero (a : R) : a // 0 = NotReal.
Proof.
  unfold div. destruct (Req_dec_T 0 0) as [_ | N].
  - reflexivity.
  - exfalso. apply N. reflexivity.
Qed.

(** The quarter turn added to the x rotation swaps sine and cosine. *)
Lemma sin_quarter_turn (a : R) : Math.sin (Math.PI / 2 + a) = cos a.
Proof.
  unfold Math.sin, Math.PI. rewrite sin_plus, sin_PI2, cos_PI2. lra.
Qed.

Lemma cos_quarter_turn (a : R) : Math.cos (Math.PI / 2 + a) = - sin a.
Proof.
  unfold Math.cos, Math.PI. rewrite cos_plus, sin_PI2, cos_PI2. lra.
Qed.

Lemma radians_0 : radians 0 = 0.
Proof. unfold radians. lra. Qed.

Lemma radians_bounds (deg : R) :
  -70 <= deg <= 70 -> - (PI / 2) < radians deg < PI / 2.
Proof.
  intros [Hl Hu]. unfold radians, Math.PI.
  pose proof PI_RGT_0 as HPI. split; nra.
Qed.

Lemma radians_pos (deg : R) : 0 < deg -> 0 < radians deg.
Proof.
  intro H. unfold radians, Math.PI. pose proof PI_RGT_0 as HPI. nra.
Qed.

Lemma radians_opp (deg : R) : radians (- deg) = - radians deg.
Proof. unfold radians. lra. Qed.

(** ** The normal vector of [calculatePlaneEquation] *)

(** The three components in closed form. *)
Lemma normalVector_closed_form (height xRotation zRotation cubeSize : R) :
  PlaneEquation.normalVector
    (calculatePlaneEquation height xRotation zRotation cubeSize)
  = [ cos (radians xRotation);
      - sin (radians xRotation) * cos (radians zRotation);
      sin (radians zRotation) * - sin (radians xRotation) ].
Proof.
  unfold calculatePlaneEquation. cbn [PlaneEquation.normalVector].
  fold (radians xRotation) (radians zRotation).
  rewrite sin_quarter_turn, cos_quarter_turn. reflexivity.
Qed.

(** Inside the slider range the y-component vanishes only at [xRotation = 0]. *)
Lemma normalY_nonzero (xRotation zRotation : R) :
  -70 <= xRotation <= 70 -> xRotation <> 0 -> -70 <= zRotation <= 70 ->
  - sin (radians xRotation) * cos (radians zRotation) <> 0.
Proof.
  intros Hx Hx0 Hz.
  pose proof (radians_bounds _ Hx) as [Hxl Hxu].
  pose proof (radians_bounds _ Hz) as [Hzl Hzu].
  pose proof PI_RGT_0 as HPI.
  assert (Hc : 0 < cos (radians zRotation)) by (apply cos_gt_0; assumption).
  assert (Hs : sin (radians xRotation) <> 0).
  { destruct (Rtotal_order xRotation 0) as [Hneg | [Hzero | Hpos]].
    - assert (Hp : 0 < sin (radians (- xRotation))).
      { apply sin_gt_0.
        - apply radians_pos. lra.
        - rewrite radians_opp. lra. }
      rewrite radians_opp, sin_neg in Hp. lra.
    - contradiction.
    - assert (Hp : 0 < sin (radians xRotation)).
      { apply sin_gt_0.
        - apply radians_pos. assumption.
        - lra. }
      lra. }
  intro H. apply Rmult_integral in H. destruct H as [H | H]; lra.
Qed.

Lemma normal_components (height xRotation zRotation cubeSize : R) :
  let e := calculatePlaneEquation height xRotation zRotation cubeSize in
  normalX e = cos (radians xRotation) /\
  normalY e = - sin (radians xRotation) * cos (radians zRotation) /\
  normalZ e = sin (radians zRotation) * - sin (radians xRotation).
Proof.
  cbv zeta. unfold normalX, normalY, normalZ.
  rewrite normalVector_closed_form. cbn [nth]. repeat split.
Qed.

(** The three quotients share the divisor [normalY]. *)
Lemma betas_when_normalY_nonzero (height xRotation zRotation cubeSize : R) :
  let e := calculatePlaneEquation height xRotation zRotation cubeSize in
  normalY e <> 0 ->
  PlaneEquation.beta0 e = Real (height * cubeSize - cubeSize / 2) /\
  PlaneEquation.beta1 e = Real (- normalX e / normalY e) /\
  PlaneEquation.beta2 e = Real (- normalZ e / normalY e).
Proof.
  cbv zeta. unfold normalX, normalY, normalZ, calculatePlaneEquation.
  cbn [PlaneEquation.normalVector PlaneEquation.beta0 PlaneEquation.beta1
       PlaneEquation.beta2 nth].
  set (nY := Math.cos _ * Math.cos _). intro Hn.
  rewrite !div_real by exact Hn. unfold Real.
  repeat split. f_equal. clearbody nY. field. exact Hn.
Qed.

Lemma betas_when_normalY_zero (height xRotation zRotation cubeSize : R) :
  let e := calculatePlaneEquation height xRotation zRotation cubeSize in
  normalY e = 0 ->
  PlaneEquation.beta0 e = NotReal /\
  PlaneEquation.beta1 e = NotReal /\
  PlaneEquation.beta2 e = NotReal.
Proof.
  cbv zeta. unfold normalY, calculatePlaneEquation.
  cbn [PlaneEquation.normalVector PlaneEquation.beta0 PlaneEquation.beta1
       PlaneEquation.beta2 nth].
  intro Hn. rewrite Hn, !div_zero. repeat split.
Qed.

(** ** [calculatePlaneEquation] at the sliders' start position *)

(** C1, evaluated on the code: at height 0.5, no rotation and cube size 5 the
    normal is [(1, 0, 0)], the normal of a vertical plane, so the three
    quotients divide by zero and none of [beta0], [beta1], [beta2] is the real
    number 0 that a horizontal plane through the origin has. *)
Theorem calculatePlaneEquation_start_position :
  calculatePlaneEquation 0.5 0 0 5
  = PlaneEquation.mk NotReal NotReal NotReal [1; 0; 0].
Proof.
  pose proof (normalVector_closed_form 0.5 0 0 5) as Hv.
  rewrite radians_0, sin_0, cos_0 in Hv.
  replace (- 0 * 1) with 0 in Hv by lra.
  replace (0 * - 0) with 0 in Hv by lra.
  pose proof (betas_when_normalY_zero 0.5 0 0 5) as Hb. cbv zeta in Hb.
  destruct Hb as (H0 & H1 & H2).
  { unfold normalY. rewrite Hv. reflexivity. }
  destruct (calculatePlaneEquation 0.5 0 0 5) as [b0 b1 b2 nv].
  cbn in Hv, H0, H1, H2. subst. reflexivity.
Qed.

(** At every slider position with a non-zero x rotation the y-component of
    the normal is not zero. *)
Lemma normalY_nonzero_in_range (height xRotation zRotation cubeSize : R) :
  -70 <= xRotation <= 70 -> xRotation <> 0 -> -70 <= zRotation <= 70 ->
  normalY (calculatePlaneEquation height xRotation zRotation cubeSize) <> 0.
Proof.
  intros Hx Hx0 Hz.
  destruct (normal_components height xRotation zRotation cubeSize)
    as (_ & Hy & _).
  rewrite Hy. apply normalY_nonzero; assumption.
Qed.

(** ** The explicit form of the plane *)

Section ExplicitForm.

Variables height xRotation zRotation cubeSize : R.

Local Notation "'plane'" :=
  (calculatePlaneEquation height xRotation zRotation cubeSize).

(** C3: when the y-component of the normal is not zero, the three
    coefficients are real numbers and every point
    [(x, beta0 + beta1 * x + beta2 * z, z)] satisfies the implicit equation
    [normalX * x + normalY * y + normalZ * z + d = 0] with
    [d = - normalY * (height * cubeSize - cubeSize / 2)]. *)
Theorem explicit_form_represents_plane :
  normalY plane <> 0 ->
  exists b0 b1 b2 : R,
    PlaneEquation.beta0 plane = Real b0 /\
    PlaneEquation.beta1 plane = Real b1 /\
    PlaneEquation.beta2 plane = Real b2 /\
    forall x z : R,
      normalX plane * x + normalY plane * (b0 + b1 * x + b2 * z)
      + normalZ plane * z
      + - normalY plane * (height * cubeSize - cubeSize / 2) = 0.
Proof.
  intro Hn.
  destruct (betas_when_normalY_nonzero height xRotation zRotation cubeSize Hn)
    as (H0 & H1 & H2).
  eexists _, _, _. repeat split; [exact H0 | exact H1 | exact H2 |].
  intros x z. field. exact Hn.
Qed.

(** C4: for rotations strictly inside (-70, 70) the returned normal has
    unit length. *)
Theorem normal_has_unit_length :
  -70 < xRotation < 70 -> -70 < zRotation < 70 ->
  normalX plane ^ 2 + normalY plane ^ 2 + normalZ plane ^ 2 = 1.
Proof.
  intros _ _.
  destruct (normal_components height xRotation zRotation cubeSize)
    as (Hx & Hy & Hz).
  rewrite Hx, Hy, Hz.
  pose proof (sin2_cos2 (radians xRotation)) as Ha.
  pose proof (sin2_cos2 (radians zRotation)) as Hc.
  unfold Rsqr in Ha, Hc.
  set (sa := sin (radians xRotation)) in *.
  set (ca := cos (radians xRotation)) in *.
  set (sc := sin (radians zRotation)) in *.
  set (cc := cos (radians zRotation)) in *.
  replace (ca ^ 2 + (- sa * cc) ^ 2 + (sc * - sa) ^ 2)
    with (ca * ca + sa * sa * (sc * sc + cc * cc)) by ring.
  rewrite Hc. lra.
Qed.

(** C10: when the y-component of the normal is not zero, the intercept is
    the height offset [height * cubeSize - cubeSize / 2], whatever the two
    rotations are. *)
Theorem intercept_is_height_offset :
  normalY plane <> 0 ->
  PlaneEquation.beta0 plane = Real (height * cubeSize - cubeSize / 2).
Proof.
  intro Hn.
  apply (betas_when_normalY_nonzero height xRotation zRotation cubeSize Hn).
Qed.

End ExplicitForm.

Lemma explicit_form_represents_plane_witness :
  normalY (calculatePlaneEquation 0.5 30 (-45) 5) <> 0 /\
  exists b0 b1 b2 : R,
    PlaneEquation.beta0 (calculatePlaneEquation 0.5 30 (-45) 5) = Real b0 /\
    PlaneEquation.beta1 (calculatePlaneEquation 0.5 30 (-45) 5) = Real b1 /\
    PlaneEquation.beta2 (calculatePlaneEquation 0.5 30 (-45) 5) = Real b2 /\
    forall x z : R,
      normalX (calculatePlaneEquation 0.5 30 (-45) 5) * x
      + normalY (calculatePlaneEquation 0.5 30 (-45) 5) * (b0 + b1 * x + b2 * z)
      + normalZ (calculatePlaneEquation 0.5 30 (-45) 5) * z
      + - normalY (calculatePlaneEquation 0.5 30 (-45) 5) * (0.5 * 5 - 5 / 2)
      = 0.
Proof.
  assert (Hn : normalY (calculatePlaneEquation 0.5 30 (-45) 5) <> 0)
    by (apply normalY_nonzero_in_range; lra).
  split.
  - exact Hn.
  - exact (explicit_form_represents_plane 0.5 30 (-45) 5 Hn).
Defined.

Lemma normal_has_unit_length_witness :
  (-70 < 30 < 70) /\ (-70 < -45 < 70) /\
  normalX (calculatePlaneEquation 0.5 30 (-45) 5) ^ 2
  + normalY (calculatePlaneEquation 0.5 30 (-45) 5) ^ 2
  + normalZ (calculatePlaneEquation 0.5 30 (-45) 5) ^ 2 = 1.
Proof.
  assert (Hx : -70 < 30 < 70) by lra.
  assert (Hz : -70 < -45 < 70) by lra.
  split; [exact Hx | split; [exact Hz |]].
  exact (normal_has_unit_length 0.5 30 (-45) 5 Hx Hz).
Defined.

Lemma intercept_is_height_offset_witness :
  normalY (calculatePlaneEquation 0.8 (-20) 10 5) <> 0 /\
  PlaneEquation.beta0 (calculatePlaneEquation 0.8 (-20) 10 5)
  = Real (0.8 * 5 - 5 / 2).
Proof.
  assert (Hn : normalY (calculatePlaneEquation 0.8 (-20) 10 5) <> 0)
    by (apply normalY_nonzero_in_range; lra).
  split.
  - exact Hn.
  - exact (intercept_is_height_offset 0.8 (-20) 10 5 Hn).
Defined.

(** ** [calculateError] *)

Lemma Math_pow_2 (v : R) : Math.pow v 2 = v².
Proof. unfold Math.pow, Rsqr. simpl. ring. Qed.

(** The [reduce] started from any accumulator adds the sum of the squared
    residuals to it. *)
Lemma reduce_from (equation : Equation.t) (points : list Point3D) :
  forall acc : R,
    fold_left
      (fun totalError point =>
         totalError
         + Math.pow
             (y point
              - (Equation.beta0 equation + Equation.beta1 equation * x point
                 + Equation.beta2 equation * z point)) 2)
      points acc
    = acc + sum_of_squared_residuals points equation.
Proof.
  unfold sum_of_squared_residuals.
  induction points as [| p ps IH]; intro acc; cbn [fold_left map fold_right].
  - ring.
  - rewrite IH, Math_pow_2. unfold squared_residual at 2. ring.
Qed.

Lemma calculateError_unfold (points : list Point3D) (equation : Equation.t) :
  calculateError points equation = sum_of_squared_residuals points equation.
Proof.
  unfold calculateError. cbv zeta. rewrite reduce_from. ring.
Qed.

Lemma sum_of_squared_residuals_nonneg
    (points : list Point3D) (equation : Equation.t) :
  0 <= sum_of_squared_residuals points equation.
Proof.
  unfold sum_of_squared_residuals.
  induction points as [| p ps IH]; simpl.
  - lra.
  - pose proof (Rle_0_sqr
                  (y p - (Equation.beta0 equation
                          + Equation.beta1 equation * x p
                          + Equation.beta2 equation * z p))) as Hsq.
    unfold squared_residual at 1. lra.
Qed.

(** C5: [calculateError] is the sum over the points of
    [(y - (beta0 + beta1 * x + beta2 * z))²]; it is 0 on the empty sequence
    and never negative. *)
Theorem calculateError_sum_of_squares
    (points : list Point3D) (equation : Equation.t) :
  calculateError points equation
  = fold_right Rplus 0
      (map (fun p =>
              (y p - (Equation.beta0 equation + Equation.beta1 equation * x p
                      + Equation.beta2 equation * z p)) ^ 2)
         points)
  /\ calculateError [] equation = 0
  /\ 0 <= calculateError points equation.
Proof.
  split; [| split].
  - rewrite calculateError_unfold. unfold sum_of_squared_residuals.
    f_equal. apply map_ext. intro p. unfold squared_residual, Rsqr. ring.
  - reflexivity.
  - rewrite calculateError_unfold. apply sum_of_squared_residuals_nonneg.
Qed.

Lemma sum_of_squared_residuals_perm
    (equation : Equation.t) (points points' : list Point3D) :
  Permutation points points' ->
  sum_of_squared_residuals points equation
  = sum_of_squared_residuals points' equation.
Proof.
  unfold sum_of_squared_residuals.
  induction 1 as [| p l l' _ IH | p q l | l l' l'' _ IH1 _ IH2]; simpl.
  - reflexivity.
  - rewrite IH. reflexivity.
  - ring.
  - rewrite IH1. exact IH2.
Qed.

(** C8: reordering the points does not change the total error. *)
Theorem calculateError_permutation_invariant
    (points points' : list Point3D) (equation : Equation.t) :
  Permutation points points' ->
  calculateError points equation = calculateError points' equation.
Proof.
  intro Hperm. rewrite !calculateError_unfold.
  apply sum_of_squared_residuals_perm. exact Hperm.
Qed.

Lemma calculateError_permutation_invariant_witness :
  Permutation
    [mkPoint3D 1 2 0; mkPoint3D 0 (-1) 1; mkPoint3D 2 0 (-2)]
    [mkPoint3D 2 0 (-2); mkPoint3D 1 2 0; mkPoint3D 0 (-1) 1]
  /\ calculateError
       [mkPoint3D 1 2 0; mkPoint3D 0 (-1) 1; mkPoint3D 2 0 (-2)]
       (Equation.mk 0.25 0.5 (-0.3))
     = calculateError
         [mkPoint3D 2 0 (-2); mkPoint3D 1 2 0; mkPoint3D 0 (-1) 1]
         (Equation.mk 0.25 0.5 (-0.3)).
Proof.
  assert (Hperm :
    Permutation
      [mkPoint3D 1 2 0; mkPoint3D 0 (-1) 1; mkPoint3D 2 0 (-2)]
      [mkPoint3D 2 0 (-2); mkPoint3D 1 2 0; mkPoint3D 0 (-1) 1]).
  { apply Permutation_sym.
    apply (Permutation_cons_app [mkPoint3D 1 2 0; mkPoint3D 0 (-1) 1] []).
    apply Permutation_refl. }
  split.
  - exact Hperm.
  - exact (calculateError_permutation_invariant _ _ _ Hperm).
Defined.

(** A point on the plane adds nothing to the total error. *)
Lemma squared_residual_on_plane (equation : Equation.t) (p : Point3D) :
  y p = Equation.beta0 equation + Equation.beta1 equation * x p
        + Equation.beta2 equation * z p ->
  calculateError [p] equation = 0.
Proof.
  intro Hon. rewrite calculateError_unfold.
  unfold sum_of_squared_residuals, squared_residual, Rsqr. simpl.
  rewrite Hon. ring.
Qed.

(** ** [ErrorLines] against [calculatePlaneEquation] *)

(** C9: with the cube size [CUBE_SIZE] of [RegressionCube], when the
    y-component of the normal is not zero, the coefficients are real numbers
    and the line drawn for each point goes from the observed [(x, y, z)] to
    [(x, beta0 + beta1 * x + beta2 * z, z)]: the predicted y that [ErrorLines]
    computes from the implicit form is the value of the explicit form. *)
Theorem ErrorLines_follow_plane_equation
    (points : list Point3D) (height xRotation zRotation : R) :
  normalY (calculatePlaneEquation height xRotation zRotation CUBE_SIZE) <> 0 ->
  exists b0 b1 b2 : R,
    PlaneEquation.beta0
      (calculatePlaneEquation height xRotation zRotation CUBE_SIZE) = Real b0 /\
    PlaneEquation.beta1
      (calculatePlaneEquation height xRotation zRotation CUBE_SIZE) = Real b1 /\
    PlaneEquation.beta2
      (calculatePlaneEquation height xRotation zRotation CUBE_SIZE) = Real b2 /\
    ErrorLines points height xRotation zRotation
    = map (fun p =>
             [ Real (x p); Real (y p); Real (z p);
               Real (x p); Real (b0 + b1 * x p + b2 * z p); Real (z p) ])
        points.
Proof.
  intro Hn.
  destruct (betas_when_normalY_nonzero height xRotation zRotation CUBE_SIZE Hn)
    as (H0 & H1 & H2).
  eexists _, _, _. repeat split; [exact H0 | exact H1 | exact H2 |].
  unfold ErrorLines. cbv zeta. apply map_ext. intro p.
  unfold normalY, normalX, normalZ, calculatePlaneEquation in *.
  cbn [PlaneEquation.normalVector nth] in *.
  set (nY := Math.cos _ * Math.cos _) in *.
  rewrite div_real by exact Hn. unfold HALF_SIZE.
  match goal with
  | |- context [Real (?a / nY)] =>
      replace (a / nY)
        with (height * CUBE_SIZE - CUBE_SIZE / 2
              + - Math.sin (Math.PI / 2 + xRotation * Math.PI / 180) / nY * x p
              + - (Math.sin (zRotation * Math.PI / 180)
                   * Math.cos (Math.PI / 2 + xRotation * Math.PI / 180))
                / nY * z p)
        by (clearbody nY; field; exact Hn)
  end.
  reflexivity.
Qed.

Lemma ErrorLines_follow_plane_equation_witness :
  normalY (calculatePlaneEquation 0.5 30 (-45) CUBE_SIZE) <> 0 /\
  exists b0 b1 b2 : R,
    PlaneEquation.beta0 (calculatePlaneEquation 0.5 30 (-45) CUBE_SIZE)
      = Real b0 /\
    PlaneEquation.beta1 (calculatePlaneEquation 0.5 30 (-45) CUBE_SIZE)
      = Real b1 /\
    PlaneEquation.beta2 (calculatePlaneEquation 0.5 30 (-45) CUBE_SIZE)
      = Real b2 /\
    ErrorLines [mkPoint3D 1 2 0; mkPoint3D 0 (-1) 1] 0.5 30 (-45)
    = map (fun p =>
             [ Real (x p); Real (y p); Real (z p);
               Real (x p); Real (b0 + b1 * x p + b2 * z p); Real (z p) ])
        [mkPoint3D 1 2 0; mkPoint3D 0 (-1) 1].
Proof.
  assert (Hn : normalY (calculatePlaneEquation 0.5 30 (-45) CUBE_SIZE) <> 0)
    by (apply normalY_nonzero_in_range; lra).
  split.
  - exact Hn.
  - exact (ErrorLines_follow_plane_equation
             [mkPoint3D 1 2 0; mkPoint3D 0 (-1) 1] 0.5 30 (-45) Hn).
Defined.

(** ** [generateDataPoints] *)

Section DataGeneration.

Variable rng : Type.
Variable Math_random : rng -> R * rng.

Local Notation "'draw_point'" := (generateDataPoint rng Math_random).

(** [map] keeps the length of the array it runs over. *)
Lemma map_drawing_length {A B : Type} (f : A -> rng -> B * rng) (l : list A) :
  forall s : rng, length (fst (map_drawing rng f l s)) = length l.
Proof.
  induction l as [| a l' IH]; intro s; simpl.
  - reflexivity.
  - destruct (f a s) as [b s1].
    specialize (IH s1). destruct (map_drawing rng f l' s1) as [bs s2].
    simpl in *. rewrite IH. reflexivity.
Qed.

(** What the callback establishes for each element holds of the whole
    result. *)
Lemma map_drawing_Forall {A B : Type} (f : A -> rng -> B * rng)
    (P : B -> Prop) (l : list A) :
  (forall a s, P (fst (f a s))) ->
  forall s : rng, Forall P (fst (map_drawing rng f l s)).
Proof.
  intro Hf. induction l as [| a l' IH]; intro s; simpl.
  - constructor.
  - pose proof (Hf a s) as Hb. destruct (f a s) as [b s1].
    specialize (IH s1). destruct (map_drawing rng f l' s1) as [bs s2].
    simpl in *. constructor; assumption.
Qed.

Lemma clamp_bounds (lo hi v : R) :
  lo <= hi -> lo <= Math.max lo (Math.min hi v) <= hi.
Proof.
  intro Hle. unfold Math.max, Math.min, Rmax, Rmin.
  destruct (Rle_dec hi v); destruct (Rle_dec lo _); lra.
Qed.

Lemma clamp_inside (lo hi v : R) :
  lo <= v <= hi -> Math.max lo (Math.min hi v) = v.
Proof.
  intros [Hl Hu]. unfold Math.max, Math.min, Rmax, Rmin.
  destruct (Rle_dec hi v); destruct (Rle_dec lo _); lra.
Qed.

(** The clamp puts the y of every generated point inside the cube. *)
Lemma generateDataPoint_bounds (noise : R) (s : rng) :
  - 0.45 * CUBE_SIZE <= y (fst (draw_point noise s)) <= 0.45 * CUBE_SIZE.
Proof.
  unfold generateDataPoint.
  destruct (Math_random s) as [r1 s1].
  destruct (Math_random s1) as [r2 s2].
  destruct (Math_random s2) as [r3 s3].
  cbn [fst y].
  match goal with
  | |- _ <= Math.max ?lo (Math.min ?hi ?v) <= _ =>
      pose proof (clamp_bounds lo hi v) as Hc
  end.
  unfold HALF_SIZE, CUBE_SIZE in *. lra.
Qed.

(** Without noise, and with draws in [[0, 1)], the clamp leaves the value of
    the linear model unchanged. *)
Lemma generateDataPoint_noiseless (s : rng) :
  (forall s', 0 <= fst (Math_random s') < 1) ->
  y (fst (draw_point 0 s))
  = 0.5 * x (fst (draw_point 0 s)) - 0.3 * z (fst (draw_point 0 s)).
Proof.
  intro Hrange. unfold generateDataPoint.
  pose proof (Hrange s) as H1. destruct (Math_random s) as [r1 s1].
  pose proof (Hrange s1) as H2. destruct (Math_random s1) as [r2 s2].
  destruct (Math_random s2) as [r3 s3].
  cbn [fst x y z] in *.
  rewrite clamp_inside; unfold HALF_SIZE, CUBE_SIZE; lra.
Qed.

(** C7: for every count and every noise, [generateDataPoints] returns exactly
    [count] points and the y of each lies in
    [[-0.45 * CUBE_SIZE, 0.45 * CUBE_SIZE]]. *)
Theorem generateDataPoints_count_and_bounds
    (count : nat) (noise : R) (s : rng) :
  length (fst (generateDataPoints rng Math_random count noise s)) = count /\
  Forall (fun p => - 0.45 * CUBE_SIZE <= y p <= 0.45 * CUBE_SIZE)
    (fst (generateDataPoints rng Math_random count noise s)).
Proof.
  unfold generateDataPoints. split.
  - rewrite map_drawing_length. unfold Array_fill. apply repeat_length.
  - apply map_drawing_Forall. intros _ s'. apply generateDataPoint_bounds.
Qed.

(** C6: with noise 0, for any count, every generated point has
    [y = 0.5 * x - 0.3 * z], the clamp leaving it unchanged, and
    [|y| <= 0.45 * 5 = 2.25]; [Math.random] returns values in [[0, 1)]. *)
Theorem generateDataPoints_noiseless (count : nat) (s : rng) :
  (forall s', 0 <= fst (Math_random s') < 1) ->
  Forall (fun p => y p = 0.5 * x p - 0.3 * z p /\ Rabs (y p) <= 0.45 * 5)
    (fst (generateDataPoints rng Math_random count 0 s)).
Proof.
  intro Hrange. unfold generateDataPoints.
  apply map_drawing_Forall. intros _ s'. split.
  - apply generateDataPoint_noiseless. exact Hrange.
  - apply Rabs_le.
    pose proof (generateDataPoint_bounds 0 s') as Hb.
    unfold CUBE_SIZE in Hb. lra.
Qed.

End DataGeneration.

(** One run on the cycling generator, with noise large enough for the clamp
    to act: the draws 0, 0.25, 0.75 give [x = -2], [z = -1] and an unclamped
    [y = -0.7 + 0.5 * 10 = 4.3], which the clamp brings down to 2.25. *)
Example generateDataPoints_one_clamped :
  fst (generateDataPoints nat cycling_random 1 10 0%nat)
  = [mkPoint3D (-2) 2.25 (-1)].
Proof.
  unfold generateDataPoints, Array_fill, generateDataPoint. simpl.
  unfold Math.max, Math.min, HALF_SIZE, CUBE_SIZE.
  rewrite Rmin_left by lra. rewrite Rmax_right by lra.
  f_equal. f_equal; lra.
Qed.

Lemma cycling_random_range (n : nat) : 0 <= fst (cycling_random n) < 1.
Proof.
  unfold cycling_random. cbn [fst].
  destruct (Nat.modulo n 3) as [| [| k]]; lra.
Qed.

Lemma generateDataPoints_noiseless_witness :
  (forall s', 0 <= fst (cycling_random s') < 1) /\
  Forall (fun p => y p = 0.5 * x p - 0.3 * z p /\ Rabs (y p) <= 0.45 * 5)
    (fst (generateDataPoints nat cycling_random 30 0 0%nat)).
Proof.
  split.
  - exact cycling_random_range.
  - exact (generateDataPoints_noiseless nat cycling_random 30 0%nat
             cycling_random_range).
Defined.

(** * Further properties of the code *)

(** ** [calculateError] on lists built from parts *)

Lemma sum_of_squared_residuals_app
    (equation : Equation.t) (l1 l2 : list Point3D) :
  sum_of_squared_residuals (l1 ++ l2) equation
  = sum_of_squared_residuals l1 equation
    + sum_of_squared_residuals l2 equation.
Proof.
  unfold sum_of_squared_residuals.
  induction l1 as [| p l1 IH]; simpl.
  - ring.
  - rewrite IH. ring.
Qed.

(** X1: the total error of two batches of points put together is the sum of
    the total errors of the batches. *)
Theorem calculateError_app
    (points1 points2 : list Point3D) (equation : Equation.t) :
  calculateError (points1 ++ points2) equation
  = calculateError points1 equation + calculateError points2 equation.
Proof.
  rewrite !calculateError_unfold. apply sum_of_squared_residuals_app.
Qed.

Lemma squared_residual_nonneg (equation : Equation.t) (p : Point3D) :
  0 <= squared_residual equation p.
Proof. unfold squared_residual. apply Rle_0_sqr. Qed.

Lemma squared_residual_zero (equation : Equation.t) (p : Point3D) :
  squared_residual equation p = 0 <->
  y p = Equation.beta0 equation + Equation.beta1 equation * x p
        + Equation.beta2 equation * z p.
Proof.
  unfold squared_residual. split.
  - intro H. apply Rsqr_0_uniq in H. lra.
  - intro H. rewrite H. unfold Rsqr. ring.
Qed.

(** X2: the total error is 0 exactly when every point lies on the plane
    [y = beta0 + beta1 * x + beta2 * z]. *)
Theorem calculateError_zero_iff_on_plane
    (points : list Point3D) (equation : Equation.t) :
  calculateError points equation = 0 <->
  Forall (fun p => y p = Equation.beta0 equation
                         + Equation.beta1 equation * x p
                         + Equation.beta2 equation * z p)
    points.
Proof.
  rewrite calculateError_unfold. unfold sum_of_squared_residuals.
  induction points as [| p ps IH]; simpl.
  - split; [constructor | reflexivity].
  - pose proof (squared_residual_nonneg equation p) as Hp.
    pose proof (sum_of_squared_residuals_nonneg ps equation) as Hps.
    unfold sum_of_squared_residuals in Hps.
    split.
    + intro Hsum. constructor.
      * apply squared_residual_zero. lra.
      * apply IH. lra.
    + intro Hall. inversion Hall as [| q qs Hq Hqs]; subst.
      apply squared_residual_zero in Hq. apply IH in Hqs. lra.
Qed.

(** X3: no point's own squared residual exceeds the total error. *)
Theorem squared_residual_le_calculateError
    (points : list Point3D) (equation : Equation.t) (p : Point3D) :
  In p points ->
  (y p - (Equation.beta0 equation + Equation.beta1 equation * x p
          + Equation.beta2 equation * z p)) ^ 2
  <= calculateError points equation.
Proof.
  intro Hin. rewrite calculateError_unfold.
  replace ((y p - (Equation.beta0 equation + Equation.beta1 equation * x p
                   + Equation.beta2 equation * z p)) ^ 2)
    with (squared_residual equation p)
    by (unfold squared_residual, Rsqr; ring).
  unfold sum_of_squared_residuals.
  induction points as [| q qs IH]; simpl.
  - contradiction.
  - pose proof (squared_residual_nonneg equation q) as Hq.
    pose proof (sum_of_squared_residuals_nonneg qs equation) as Hqs.
    unfold sum_of_squared_residuals in Hqs.
    destruct Hin as [Heq | Hin].
    + subst q. lra.
    + specialize (IH Hin). lra.
Qed.

Lemma squared_residual_le_calculateError_witness :
  In (mkPoint3D 0 (-1) 1) [mkPoint3D 1 2 0; mkPoint3D 0 (-1) 1] /\
  (y (mkPoint3D 0 (-1) 1)
   - (Equation.beta0 (Equation.mk 0.25 0.5 (-0.3))
      + Equation.beta1 (Equation.mk 0.25 0.5 (-0.3)) * x (mkPoint3D 0 (-1) 1)
      + Equation.beta2 (Equation.mk 0.25 0.5 (-0.3)) * z (mkPoint3D 0 (-1) 1)))
  ^ 2
  <= calculateError [mkPoint3D 1 2 0; mkPoint3D 0 (-1) 1]
       (Equation.mk 0.25 0.5 (-0.3)).
Proof.
  assert (Hin : In (mkPoint3D 0 (-1) 1) [mkPoint3D 1 2 0; mkPoint3D 0 (-1) 1])
    by (right; left; reflexivity).
  split.
  - exact Hin.
  - exact (squared_residual_le_calculateError _ _ _ Hin).
Defined.

(** ** The coefficients of [calculatePlaneEquation] in closed form *)

Lemma normalY_factors_nonzero (height xRotation zRotation cubeSize : R) :
  normalY (calculatePlaneEquation height xRotation zRotation cubeSize) <> 0 ->
  sin (radians xRotation) <> 0 /\ cos (radians zRotation) <> 0.
Proof.
  destruct (normal_components height xRotation zRotation cubeSize)
    as (_ & Hy & _).
  rewrite Hy. intro Hn. split; intro H0; apply Hn; rewrite H0; ring.
Qed.

(** X4: at every slider position with a non-zero x rotation (the sliders move
    in steps of one degree, so [1 <= |xRotation| <= 70] and
    [-70 <= zRotation <= 70]) the slopes are
    [beta1 = cos xRad / (sin xRad * cos zRad)] and [beta2 = - tan zRad]: they
    do not depend on the height or the cube size, and [beta2] does not depend
    on the x rotation either. *)
Theorem slopes_closed_form_at_slider_positions
    (height xRotation zRotation cubeSize : R) :
  1 <= Rabs xRotation <= 70 -> -70 <= zRotation <= 70 ->
  PlaneEquation.beta1 (calculatePlaneEquation height xRotation zRotation cubeSize)
  = Real (cos (radians xRotation)
          / (sin (radians xRotation) * cos (radians zRotation))) /\
  PlaneEquation.beta2 (calculatePlaneEquation height xRotation zRotation cubeSize)
  = Real (- tan (radians zRotation)).
Proof.
  intros Hx Hz.
  assert (Hrange : -70 <= xRotation <= 70 /\ xRotation <> 0).
  { unfold Rabs in Hx. destruct (Rcase_abs xRotation); lra. }
  destruct Hrange as [Hxr Hx0].
  pose proof (normalY_nonzero_in_range height _ _ cubeSize Hxr Hx0 Hz) as Hn.
  destruct (normalY_factors_nonzero _ _ _ _ Hn) as [Hs Hc].
  destruct (betas_when_normalY_nonzero _ _ _ _ Hn) as (_ & H1 & H2).
  destruct (normal_components height xRotation zRotation cubeSize)
    as (Hnx & Hny & Hnz).
  rewrite H1, H2, Hnx, Hny, Hnz. unfold Real, tan.
  split; f_equal; field; auto.
Qed.

Lemma slopes_closed_form_at_slider_positions_witness :
  (1 <= Rabs 30 <= 70) /\ (-70 <= -45 <= 70) /\
  PlaneEquation.beta1 (calculatePlaneEquation 0.5 30 (-45) 5)
  = Real (cos (radians 30) / (sin (radians 30) * cos (radians (-45)))) /\
  PlaneEquation.beta2 (calculatePlaneEquation 0.5 30 (-45) 5)
  = Real (- tan (radians (-45))).
Proof.
  assert (Hx : 1 <= Rabs 30 <= 70) by (rewrite Rabs_pos_eq; lra).
  assert (Hz : -70 <= -45 <= 70) by lra.
  split; [exact Hx | split; [exact Hz |]].
  exact (slopes_closed_form_at_slider_positions 0.5 30 (-45) 5 Hx Hz).
Defined.

(** X5: at every slider position with a non-zero x rotation (both rotations
    in [[-70, 70]]) the three coefficients are real numbers. *)
Theorem coefficients_real_off_zero_x_rotation
    (height xRotation zRotation cubeSize : R) :
  -70 <= xRotation <= 70 -> xRotation <> 0 -> -70 <= zRotation <= 70 ->
  exists b0 b1 b2 : R,
    PlaneEquation.beta0
      (calculatePlaneEquation height xRotation zRotation cubeSize) = Real b0 /\
    PlaneEquation.beta1
      (calculatePlaneEquation height xRotation zRotation cubeSize) = Real b1 /\
    PlaneEquation.beta2
      (calculatePlaneEquation height xRotation zRotation cubeSize) = Real b2.
Proof.
  intros Hx Hx0 Hz.
  pose proof (normalY_nonzero_in_range height _ _ cubeSize Hx Hx0 Hz) as Hn.
  destruct (betas_when_normalY_nonzero _ _ _ _ Hn) as (H0 & H1 & H2).
  eexists _, _, _. repeat split; eassumption.
Qed.

Lemma coefficients_real_off_zero_x_rotation_witness :
  (-70 <= -70 <= 70) /\ -70 <> 0 /\ (-70 <= 70 <= 70) /\
  exists b0 b1 b2 : R,
    PlaneEquation.beta0 (calculatePlaneEquation 1 (-70) 70 5) = Real b0 /\
    PlaneEquation.beta1 (calculatePlaneEquation 1 (-70) 70 5) = Real b1 /\
    PlaneEquation.beta2 (calculatePlaneEquation 1 (-70) 70 5) = Real b2.
Proof.
  assert (Hx : -70 <= -70 <= 70) by lra.
  assert (Hx0 : -70 <> 0) by lra.
  assert (Hz : -70 <= 70 <= 70) by lra.
  split; [exact Hx | split; [exact Hx0 | split; [exact Hz |]]].
  exact (coefficients_real_off_zero_x_rotation 1 (-70) 70 5 Hx Hx0 Hz).
Defined.

(** ** [ErrorLines] and [RegressionPlane] *)

(** The vertex arrays when the y-component of the normal is not zero. *)
Lemma ErrorLines_closed_form
    (points : list Point3D) (height xRotation zRotation : R) :
  normalY (calculatePlaneEquation height xRotation zRotation CUBE_SIZE) <> 0 ->
  ErrorLines points height xRotation zRotation
  = map (fun p =>
           [ Real (x p); Real (y p); Real (z p); Real (x p);
             Real (height * CUBE_SIZE - CUBE_SIZE / 2
                   + - normalX (calculatePlaneEquation height xRotation
                                  zRotation CUBE_SIZE)
                     / normalY (calculatePlaneEquation height xRotation
                                  zRotation CUBE_SIZE) * x p
                   + - normalZ (calculatePlaneEquation height xRotation
                                  zRotation CUBE_SIZE)
                     / normalY (calculatePlaneEquation height xRotation
                                  zRotation CUBE_SIZE) * z p);
             Real (z p) ])
      points.
Proof.
  intro Hn. unfold ErrorLines. cbv zeta. apply map_ext. intro p.
  unfold normalY, normalX, normalZ, calculatePlaneEquation in *.
  cbn [PlaneEquation.normalVector nth] in *.
  set (nY := Math.cos _ * Math.cos _) in *.
  rewrite div_real by exact Hn. unfold HALF_SIZE.
  match goal with
  | |- context [Real (?a / nY)] =>
      match goal with
      | |- _ = [_; _; _; _; Real ?b; _] =>
          replace (a / nY) with b by (clearbody nY; field; exact Hn)
      end
  end.
  reflexivity.
Qed.

Lemma sum_numbers_squared_lengths (f : Point3D -> R) (points : list Point3D) :
  sum_numbers
    (map squared_length
       (map (fun p => [ Real (x p); Real (y p); Real (z p);
                        Real (x p); Real (f p); Real (z p) ])
          points))
  = Real (fold_right Rplus 0 (map (fun p => (y p - f p)²) points)).
Proof.
  induction points as [| p ps IH]; cbn [map sum_numbers fold_right].
  - reflexivity.
  - rewrite IH. unfold squared_length, Real. f_equal. unfold Rsqr. ring.
Qed.

(** X7: when the y-component of the normal is not zero, the squared lengths
    of the lines of [ErrorLines] add up to the total error that
    [calculateError] gives for the coefficients of [calculatePlaneEquation]
    (with the cube size [CUBE_SIZE]). *)
Theorem ErrorLines_squared_lengths_sum_to_calculateError
    (points : list Point3D) (height xRotation zRotation : R) :
  normalY (calculatePlaneEquation height xRotation zRotation CUBE_SIZE) <> 0 ->
  exists b0 b1 b2 : R,
    PlaneEquation.beta0
      (calculatePlaneEquation height xRotation zRotation CUBE_SIZE) = Real b0 /\
    PlaneEquation.beta1
      (calculatePlaneEquation height xRotation zRotation CUBE_SIZE) = Real b1 /\
    PlaneEquation.beta2
      (calculatePlaneEquation height xRotation zRotation CUBE_SIZE) = Real b2 /\
    sum_numbers
      (map squared_length (ErrorLines points height xRotation zRotation))
    = Real (calculateError points (Equation.mk b0 b1 b2)).
Proof.
  intro Hn.
  destruct (betas_when_normalY_nonzero height xRotation zRotation CUBE_SIZE Hn)
    as (H0 & H1 & H2).
  eexists _, _, _. repeat split; [exact H0 | exact H1 | exact H2 |].
  rewrite (ErrorLines_closed_form points _ _ _ Hn).
  rewrite sum_numbers_squared_lengths, calculateError_unfold.
  reflexivity.
Qed.

Lemma ErrorLines_squared_lengths_sum_to_calculateError_witness :
  normalY (calculatePlaneEquation 0.5 30 (-45) CUBE_SIZE) <> 0 /\
  exists b0 b1 b2 : R,
    PlaneEquation.beta0 (calculatePlaneEquation 0.5 30 (-45) CUBE_SIZE)
      = Real b0 /\
    PlaneEquation.beta1 (calculatePlaneEquation 0.5 30 (-45) CUBE_SIZE)
      = Real b1 /\
    PlaneEquation.beta2 (calculatePlaneEquation 0.5 30 (-45) CUBE_SIZE)
      = Real b2 /\
    sum_numbers
      (map squared_length
         (ErrorLines [mkPoint3D 1 2 0; mkPoint3D 0 (-1) 1] 0.5 30 (-45)))
    = Real (calculateError [mkPoint3D 1 2 0; mkPoint3D 0 (-1) 1]
              (Equation.mk b0 b1 b2)).
Proof.
  assert (Hn : normalY (calculatePlaneEquation 0.5 30 (-45) CUBE_SIZE) <> 0)
    by (apply normalY_nonzero_in_range; lra).
  split.
  - exact Hn.
  - exact (ErrorLines_squared_lengths_sum_to_calculateError
             [mkPoint3D 1 2 0; mkPoint3D 0 (-1) 1] 0.5 30 (-45) Hn).
Defined.

(** X8: when the y-component of the normal is not zero, the y position that
    a frame gives the rendered plane is the intercept [beta0] of
    [calculatePlaneEquation] (cube size [CUBE_SIZE]), and the group's Euler
    angles are the two slider angles in radians with no y rotation. *)
Theorem RegressionPlane_height_is_intercept
    (height xRotation zRotation : R) (g : Group) :
  normalY (calculatePlaneEquation height xRotation zRotation CUBE_SIZE) <> 0 ->
  exists g' : Group,
    RegressionPlane_useFrame height xRotation zRotation (Some g) = Some g' /\
    PlaneEquation.beta0
      (calculatePlaneEquation height xRotation zRotation CUBE_SIZE)
    = Real (position_y g') /\
    rotation g' = (radians xRotation, 0, radians zRotation).
Proof.
  intro Hn.
  destruct (betas_when_normalY_nonzero height xRotation zRotation CUBE_SIZE Hn)
    as (H0 & _ & _).
  destruct g as [rot [[px py] pz]].
  eexists. split; [reflexivity |].
  split; [| reflexivity].
  rewrite H0. unfold position_y, HALF_SIZE. cbn [position]. reflexivity.
Qed.

Lemma RegressionPlane_height_is_intercept_witness :
  normalY (calculatePlaneEquation 0.8 (-20) 10 CUBE_SIZE) <> 0 /\
  exists g' : Group,
    RegressionPlane_useFrame 0.8 (-20) 10
      (Some (mkGroup (0, 0, 0) (0, 0, 0))) = Some g' /\
    PlaneEquation.beta0 (calculatePlaneEquation 0.8 (-20) 10 CUBE_SIZE)
    = Real (position_y g') /\
    rotation g' = (radians (-20), 0, radians 10).
Proof.
  assert (Hn : normalY (calculatePlaneEquation 0.8 (-20) 10 CUBE_SIZE) <> 0)
    by (apply normalY_nonzero_in_range; lra).
  split.
  - exact Hn.
  - exact (RegressionPlane_height_is_intercept 0.8 (-20) 10
             (mkGroup (0, 0, 0) (0, 0, 0)) Hn).
Defined.

(** X9: for a height in the slider's range [[0, 1]] a frame puts the plane
    between the bottom and the top face of the cube, and leaves the x and z
    of its position as they were. *)
Theorem RegressionPlane_inside_cube
    (height xRotation zRotation : R) (g : Group) :
  0 <= height <= 1 ->
  exists g' : Group,
    RegressionPlane_useFrame height xRotation zRotation (Some g) = Some g' /\
    - HALF_SIZE <= position_y g' <= HALF_SIZE /\
    fst (fst (position g')) = fst (fst (position g)) /\
    snd (position g') = snd (position g).
Proof.
  intros [Hl Hu]. destruct g as [rot [[px py] pz]].
  eexists. split; [reflexivity |].
  cbn. unfold HALF_SIZE, CUBE_SIZE. repeat split; lra.
Qed.

Lemma RegressionPlane_inside_cube_witness :
  (0 <= 1 <= 1) /\
  exists g' : Group,
    RegressionPlane_useFrame 1 70 (-70)
      (Some (mkGroup (0, 0, 0) (1, 2, 3))) = Some g' /\
    - HALF_SIZE <= position_y g' <= HALF_SIZE /\
    fst (fst (position g')) = fst (fst (position (mkGroup (0, 0, 0) (1, 2, 3))))
    /\ snd (position g') = snd (position (mkGroup (0, 0, 0) (1, 2, 3))).
Proof.
  assert (Hh : 0 <= 1 <= 1) by lra.
  split.
  - exact Hh.
  - exact (RegressionPlane_inside_cube 1 70 (-70)
             (mkGroup (0, 0, 0) (1, 2, 3)) Hh).
Defined.

(** ** More on [generateDataPoints] *)

Section DataGenerationMore.

Variable rng : Type.
Variable Math_random : rng -> R * rng.

Lemma after_draws_add (a b : nat) (s : rng) :
  after_draws Math_random (a + b) s
  = after_draws Math_random b (after_draws Math_random a s).
Proof.
  revert s. induction a as [| a IH]; intro s; simpl.
  - reflexivity.
  - apply IH.
Qed.

Lemma generateDataPoint_draws (noise : R) (s : rng) :
  snd (generateDataPoint rng Math_random noise s)
  = after_draws Math_random 3 s.
Proof.
  unfold generateDataPoint. cbn [after_draws].
  destruct (Math_random s) as [r1 s1]. cbn [snd].
  destruct (Math_random s1) as [r2 s2]. cbn [snd].
  destruct (Math_random s2) as [r3 s3]. reflexivity.
Qed.

Lemma map_drawing_app {A B : Type} (f : A -> rng -> B * rng)
    (l1 l2 : list A) :
  forall s : rng,
    map_drawing rng f (l1 ++ l2) s
    = (fst (map_drawing rng f l1 s)
       ++ fst (map_drawing rng f l2 (snd (map_drawing rng f l1 s))),
       snd (map_drawing rng f l2 (snd (map_drawing rng f l1 s)))).
Proof.
  induction l1 as [| a l1 IH]; intro s; simpl.
  - destruct (map_drawing rng f l2 s); reflexivity.
  - destruct (f a s) as [b s1]. rewrite IH.
    destruct (map_drawing rng f l1 s1) as [bs s2]. reflexivity.
Qed.

(** X10: generating [m + n] points is generating [m] points and then [n]
    more from the generator state the first batch left. *)
Theorem generateDataPoints_add (m n : nat) (noise : R) (s : rng) :
  generateDataPoints rng Math_random (m + n) noise s
  = (fst (generateDataPoints rng Math_random m noise s)
     ++ fst (generateDataPoints rng Math_random n noise
               (snd (generateDataPoints rng Math_random m noise s))),
     snd (generateDataPoints rng Math_random n noise
            (snd (generateDataPoints rng Math_random m noise s)))).
Proof.
  unfold generateDataPoints, Array_fill.
  rewrite repeat_app. apply map_drawing_app.
Qed.

(** X11: [generateDataPoints] makes exactly three draws per point: the
    generator is left in the state reached after [3 * count] draws. *)
Theorem generateDataPoints_draws (count : nat) (noise : R) (s : rng) :
  snd (generateDataPoints rng Math_random count noise s)
  = after_draws Math_random (3 * count) s.
Proof.
  unfold generateDataPoints, Array_fill.
  revert s. induction count as [| n IH]; intro s.
  - reflexivity.
  - replace (3 * S n)%nat with (3 + 3 * n)%nat by lia.
    rewrite after_draws_add, <- (generateDataPoint_draws noise).
    cbn [repeat map_drawing].
    destruct (generateDataPoint rng Math_random noise s) as [p s1].
    specialize (IH s1).
    destruct (map_drawing rng _ (repeat 0 n) s1) as [ps s2].
    exact IH.
Qed.

(** X12: the noise level only affects y: for the same generator state, two
    noise levels give the same x and z for every point. *)
Theorem generateDataPoints_xz_independent_of_noise
    (count : nat) (noise noise' : R) (s : rng) :
  map (fun p => (x p, z p))
    (fst (generateDataPoints rng Math_random count noise s))
  = map (fun p => (x p, z p))
      (fst (generateDataPoints rng Math_random count noise' s)).
Proof.
  unfold generateDataPoints, Array_fill.
  revert s. induction count as [| n IH]; intro s.
  - reflexivity.
  - cbn [repeat map_drawing].
    pose proof (generateDataPoint_draws noise s) as Hd.
    pose proof (generateDataPoint_draws noise' s) as Hd'.
    assert (Hxz :
      (x (fst (generateDataPoint rng Math_random noise s)),
       z (fst (generateDataPoint rng Math_random noise s)))
      = (x (fst (generateDataPoint rng Math_random noise' s)),
         z (fst (generateDataPoint rng Math_random noise' s)))).
    { unfold generateDataPoint.
      destruct (Math_random s) as [r1 s1].
      destruct (Math_random s1) as [r2 s2].
      destruct (Math_random s2) as [r3 s3]. reflexivity. }
    destruct (generateDataPoint rng Math_random noise s) as [p s1].
    destruct (generateDataPoint rng Math_random noise' s) as [p' s1'].
    cbn [fst snd] in *. rewrite <- Hd' in Hd. subst s1'.
    specialize (IH s1).
    destruct (map_drawing rng _ (repeat 0 n) s1) as [ps s2].
    destruct (map_drawing rng _ (repeat 0 n) s1) as [ps' s2'].
    cbn [fst map] in *. rewrite Hxz, IH. reflexivity.
Qed.

End DataGenerationMore.

(** ** Generated points against the true plane *)

Section GeneratedData.

Variable rng : Type.
Variable Math_random : rng -> R * rng.

Lemma generateDataPoint_xz_range (noise : R) (s : rng) :
  (forall s', 0 <= fst (Math_random s') < 1) ->
  - 0.4 * CUBE_SIZE <= x (fst (generateDataPoint rng Math_random noise s))
    < 0.4 * CUBE_SIZE /\
  - 0.4 * CUBE_SIZE <= z (fst (generateDataPoint rng Math_random noise s))
    < 0.4 * CUBE_SIZE.
Proof.
  intro Hrange. unfold generateDataPoint.
  pose proof (Hrange s) as H1. destruct (Math_random s) as [r1 s1].
  pose proof (Hrange s1) as H2. destruct (Math_random s1) as [r2 s2].
  destruct (Math_random s2) as [r3 s3].
  cbn [fst x z] in *. unfold CUBE_SIZE. lra.
Qed.

(** The noise term is at most [|noise|] in size, and the clamp, whose range
    holds every value of the true model, never moves y away from it. *)
Lemma generateDataPoint_residual (noise : R) (s : rng) :
  (forall s', 0 <= fst (Math_random s') < 1) ->
  Rabs (y (fst (generateDataPoint rng Math_random noise s))
        - (0.5 * x (fst (generateDataPoint rng Math_random noise s))
           - 0.3 * z (fst (generateDataPoint rng Math_random noise s))))
  <= Rabs noise.
Proof.
  intro Hrange. unfold generateDataPoint.
  pose proof (Hrange s) as H1. destruct (Math_random s) as [r1 s1].
  pose proof (Hrange s1) as H2. destruct (Math_random s1) as [r2 s2].
  pose proof (Hrange s2) as H3. destruct (Math_random s2) as [r3 s3].
  cbn [fst x y z] in *.
  assert (He : Rabs ((r3 - 0.5) * noise * CUBE_SIZE * 0.4) <= Rabs noise).
  { replace ((r3 - 0.5) * noise * CUBE_SIZE * 0.4)
      with ((2 * (r3 - 0.5)) * noise) by (unfold CUBE_SIZE; lra).
    rewrite Rabs_mult.
    assert (Hr : Rabs (2 * (r3 - 0.5)) <= 1) by (apply Rabs_le; lra).
    pose proof (Rabs_pos noise) as Hn.
    rewrite <- (Rmult_1_l (Rabs noise)) at 2.
    apply Rmult_le_compat_r; assumption. }
  set (e := (r3 - 0.5) * noise * CUBE_SIZE * 0.4) in *.
  set (N := Rabs noise) in *.
  assert (Hb : - N <= e <= N)
    by (unfold Rabs in He; destruct (Rcase_abs e); lra).
  clear He. clearbody e N.
  unfold Math.max, Math.min, Rmax, Rmin, HALF_SIZE, CUBE_SIZE.
  apply Rabs_le.
  destruct (Rle_dec _ _); destruct (Rle_dec _ _); lra.
Qed.

(** X13: with draws in [[0, 1)], the x and z of every generated point lie in
    [[-0.4 * CUBE_SIZE, 0.4 * CUBE_SIZE)], well inside the cube. *)
Theorem generateDataPoints_xz_inside_cube
    (count : nat) (noise : R) (s : rng) :
  (forall s', 0 <= fst (Math_random s') < 1) ->
  Forall (fun p => (- 0.4 * CUBE_SIZE <= x p < 0.4 * CUBE_SIZE)
                   /\ (- 0.4 * CUBE_SIZE <= z p < 0.4 * CUBE_SIZE))
    (fst (generateDataPoints rng Math_random count noise s)).
Proof.
  intro Hrange. unfold generateDataPoints.
  apply map_drawing_Forall. intros _ s'.
  apply generateDataPoint_xz_range. exact Hrange.
Qed.

Lemma generateDataPoints_residual_all (count : nat) (noise : R) (s : rng) :
  (forall s', 0 <= fst (Math_random s') < 1) ->
  Forall (fun p => Rabs (y p - (0.5 * x p - 0.3 * z p)) <= Rabs noise)
    (fst (generateDataPoints rng Math_random count noise s)).
Proof.
  intro Hrange. unfold generateDataPoints.
  apply map_drawing_Forall. intros _ s'.
  apply generateDataPoint_residual. exact Hrange.
Qed.

(** X14: with draws in [[0, 1)], every generated point is within [|noise|]
    of the true plane [y = 0.5 * x - 0.3 * z], for every noise level, the
    clamp included. *)
Theorem generateDataPoints_within_noise_of_true_plane
    (count : nat) (noise : R) (s : rng) :
  (forall s', 0 <= fst (Math_random s') < 1) ->
  Forall (fun p => Rabs (y p - (0.5 * x p - 0.3 * z p)) <= Rabs noise)
    (fst (generateDataPoints rng Math_random count noise s)).
Proof.
  intro Hrange. apply generateDataPoints_residual_all. exact Hrange.
Qed.

Lemma sum_of_squared_residuals_bound
    (equation : Equation.t) (bound : R) (points : list Point3D) :
  Forall (fun p => squared_residual equation p <= bound) points ->
  sum_of_squared_residuals points equation <= INR (length points) * bound.
Proof.
  unfold sum_of_squared_residuals.
  induction 1 as [| p ps Hp _ IH].
  - simpl. lra.
  - cbn [map fold_right]. change (length (p :: ps)) with (S (length ps)).
    rewrite S_INR. lra.
Qed.

(** X15: with draws in [[0, 1)], the total error of the true plane
    (intercept 0, coefficients 0.5 and -0.3) on the generated points is at
    most [count * noise²]; without noise it is 0. *)
Theorem true_plane_error_bound (count : nat) (noise : R) (s : rng) :
  (forall s', 0 <= fst (Math_random s') < 1) ->
  0 <= calculateError
         (fst (generateDataPoints rng Math_random count noise s))
         (Equation.mk 0 0.5 (-0.3))
    <= INR count * noise ^ 2.
Proof.
  intro Hrange. rewrite calculateError_unfold. split.
  - apply sum_of_squared_residuals_nonneg.
  - pose proof (map_drawing_length rng
                  (fun _ : R => generateDataPoint rng Math_random noise)
                  (Array_fill count 0) s) as Hlen.
    unfold Array_fill in Hlen. rewrite repeat_length in Hlen.
    fold (Array_fill count 0) in Hlen.
    fold (generateDataPoints rng Math_random count noise s) in Hlen.
    rewrite <- Hlen at 2.
    replace (noise ^ 2) with (noise²) by (unfold Rsqr; ring).
    apply sum_of_squared_residuals_bound.
    eapply Forall_impl;
      [| apply generateDataPoints_residual_all; exact Hrange].
    intros p Hp. unfold squared_residual. cbn [Equation.beta0
      Equation.beta1 Equation.beta2].
    apply Rsqr_le_abs_1.
    replace (y p - (0 + 0.5 * x p + -0.3 * z p))
      with (y p - (0.5 * x p - 0.3 * z p)) by lra.
    exact Hp.
Qed.

End GeneratedData.

Lemma generateDataPoints_xz_inside_cube_witness :
  (forall s', 0 <= fst (cycling_random s') < 1) /\
  Forall (fun p => (- 0.4 * CUBE_SIZE <= x p < 0.4 * CUBE_SIZE)
                   /\ (- 0.4 * CUBE_SIZE <= z p < 0.4 * CUBE_SIZE))
    (fst (generateDataPoints nat cycling_random 30 0.8 0%nat)).
Proof.
  split.
  - exact cycling_random_range.
  - exact (generateDataPoints_xz_inside_cube nat cycling_random 30 0.8 0%nat
             cycling_random_range).
Defined.

Lemma generateDataPoints_within_noise_of_true_plane_witness :
  (forall s', 0 <= fst (cycling_random s') < 1) /\
  Forall (fun p => Rabs (y p - (0.5 * x p - 0.3 * z p)) <= Rabs 2)
    (fst (generateDataPoints nat cycling_random 30 2 0%nat)).
Proof.
  split.
  - exact cycling_random_range.
  - exact (generateDataPoints_within_noise_of_true_plane nat cycling_random
             30 2 0%nat cycling_random_range).
Defined.

Lemma true_plane_error_bound_witness :
  (forall s', 0 <= fst (cycling_random s') < 1) /\
  0 <= calculateError
         (fst (generateDataPoints nat cycling_random 30 0.8 0%nat))
         (Equation.mk 0 0.5 (-0.3))
    <= INR 30 * 0.8 ^ 2.
Proof.
  split.
  - exact cycling_random_range.
  - exact (true_plane_error_bound nat cycling_random 30 0.8 0%nat
             cycling_random_range).
Defined.
